(** * The sentence-transformers embedding service

    A shallow embedding of [docker/sentence-transformers/app.py]: the
    module-level model handle, the start-up half of [lifespan], and the four
    route handlers [root], [health_check], [model_info] and
    [generate_embeddings].

    Handlers are computations in a state-and-exception monad over the part of
    the process the handlers touch: the global [model], [os.environ], the
    records sent to [logger], and a trace of the calls made to
    [model.encode].  Exceptions are the values a handler raises:
    [HTTPException] as built by the handlers, or a library exception that
    travels through unchanged.

    A request body is an [EmbeddingRequest], that is, one the pydantic
    schema has accepted; library exceptions are instances of [Exception],
    the class the [except] clauses of the module name.

    Module [Scripts] embeds the [main] functions of [scripts/test_mcp.py]
    and [scripts/test_phase2.py]: the probe of the server binary, the loop
    over the listed tests and the exit status.  The tests themselves talk
    to an external server; a run of each is an input of [main]. *)

From Stdlib Require Import ZArith List String Ascii Lia.
From Corelib Require Import PrimFloat PrimInt63.
From stdpp Require Import base strings gmap list pretty.

Open Scope string_scope.

(** ** Python values the service handles *)

(** [logging] levels used by the module ([logger.info], [logger.error]). *)
Inductive Level := INFO | ERROR.

Record LogRecord := mkLog { levelname : Level; message : string }.

(** An instance of a subclass of Python's [Exception] raised by library
    code: its class name and [str(e)]. *)
Record PyException := mkExc { exc_class : string; exc_str : string }.

(** What a handler raises. [HTTPException(status_code=..., detail=...)] is
    the only exception the module constructs itself. *)
Inductive Raised :=
| HTTPException (status_code : Z) (detail : string)
| Propagated (e : PyException).

(** [str(e)] as used by the f-strings of the [except] blocks; for
    [HTTPException] this is Starlette's ["<status>: <detail>"]. *)
Definition str (e : Raised) : string :=
  match e with
  | HTTPException c d => pretty c ++ ": " ++ d
  | Propagated x => exc_str x
  end.

(** A two-dimensional [numpy.ndarray] of floats, by rows. *)
Record ndarray := mkArray { rows : list (list float) }.

Definition tolist (a : ndarray) : list (list float) := rows a.

(** [a.shape] of a two-dimensional array. *)
Definition shape (a : ndarray) : nat * nat :=
  (length (rows a), match rows a with [] => 0 | r :: _ => length r end).

(** How Python prints a pair of ints inside an f-string. *)
Definition str_shape (s : nat * nat) : string :=
  "(" ++ pretty (fst s) ++ ", " ++ pretty (snd s) ++ ")".

(** What a pretrained model exposes to this module.  [max_seq_length] and
    [device] are probed with [getattr]/[hasattr], hence optional; [device]
    holds [str(model.device)]. *)
Record Pretrained := mkPretrained {
  max_seq_length : option Z;
  device : option string;
  get_sentence_embedding_dimension : nat;
  encode : list string -> PyException + ndarray
}.

(** The object built by [SentenceTransformer(model_name)]. *)
Record SentenceTransformer := mkModel {
  model_name_or_path : string;
  pretrained : Pretrained
}.

(** JSON-like values in the dictionaries the read endpoints return. *)
Inductive PyVal :=
| PyStr (s : string)
| PyInt (z : Z)
| PyBool (b : bool).

(** A dict literal, in source order. *)
Abbreviation PyDict := (list (string * PyVal)).

Fixpoint dict_get (k : string) (d : PyDict) : option PyVal :=
  match d with
  | [] => None
  | (k', v) :: d' => if String.eqb k k' then Some v else dict_get k d'
  end.

(** [class EmbeddingRequest(BaseModel)]: [sentences: List[str]] and
    [model: str = None]. *)
Record EmbeddingRequest := mkRequest {
  sentences : list string;
  req_model : option string
}.

(** [class EmbeddingResponse(BaseModel)]: [embeddings: List[List[float]]]. *)
Record EmbeddingResponse := mkResponse { embeddings : list (list float) }.

(** ** The process state *)

Record World := mkWorld {
  (** the module-level [model], [None] until [lifespan] assigns it *)
  model : option SentenceTransformer;
  (** [os.environ] *)
  environ : gmap string string;
  (** the models [SentenceTransformer(name)] can load, or the exception it
      raises for [name] *)
  hub : string -> PyException + Pretrained;
  (** records emitted through [logger], oldest first *)
  log : list LogRecord;
  (** arguments of every call to [model.encode], oldest first *)
  encode_calls : list (list string)
}.

Definition set_model (m : option SentenceTransformer) (w : World) : World :=
  mkWorld m (environ w) (hub w) (log w) (encode_calls w).

Definition add_log (r : LogRecord) (w : World) : World :=
  mkWorld (model w) (environ w) (hub w) (log w ++ [r]) (encode_calls w).

Definition add_encode_call (s : list string) (w : World) : World :=
  mkWorld (model w) (environ w) (hub w) (log w) (encode_calls w ++ [s]).

(** ** State and exceptions *)

Inductive Outcome (A : Type) :=
| Return (a : A)
| Raise (e : Raised).
Arguments Return {A} a.
Arguments Raise {A} e.

Definition M (A : Type) : Type := World -> Outcome A * World.

Definition ret {A} (a : A) : M A := fun w => (Return a, w).

Definition raise {A} (e : Raised) : M A := fun w => (Raise e, w).

Definition bind {A B} (c : M A) (k : A -> M B) : M B :=
  fun w =>
    match c w with
    | (Return a, w') => k a w'
    | (Raise e, w') => (Raise e, w')
    end.

(** [try: body except Exception as e: handler e]. *)
Definition try_except {A} (body : M A) (handler : Raised -> M A) : M A :=
  fun w =>
    match body w with
    | (Return a, w') => (Return a, w')
    | (Raise e, w') => handler e w'
    end.

(** [if b: c] followed by the rest of the block. *)
Definition when (b : bool) (c : M unit) : M unit :=
  if b then c else ret tt.

Notation "'let*' x ':=' c 'in' k" := (bind c (fun x => k))
  (at level 10, x name, c at level 100, k at level 200).
Notation "c >> k" := (bind c (fun _ => k))
  (at level 65, right associativity).

Definition get_model : M (option SentenceTransformer) :=
  fun w => (Return (model w), w).

Definition assign_model (m : SentenceTransformer) : M unit :=
  fun w => (Return tt, set_model (Some m) w).

(** [os.getenv(key, default)]. *)
Definition getenv (key dflt : string) : M string :=
  fun w => (Return (default dflt (environ w !! key)), w).

Definition logger_info (msg : string) : M unit :=
  fun w => (Return tt, add_log (mkLog INFO msg) w).

Definition logger_error (msg : string) : M unit :=
  fun w => (Return tt, add_log (mkLog ERROR msg) w).

(** [SentenceTransformer(model_name)]: loads the weights or raises. *)
Definition SentenceTransformer_new (model_name : string) : M SentenceTransformer :=
  fun w =>
    match hub w model_name with
    | inl e => (Raise (Propagated e), w)
    | inr p => (Return (mkModel model_name p), w)
    end.

(** [m.encode(s, convert_to_numpy=True, show_progress_bar=False)]; the call
    is recorded whether it returns or raises. *)
Definition model_encode (m : SentenceTransformer) (s : list string) : M ndarray :=
  fun w =>
    (match encode (pretrained m) s with
     | inl e => Raise (Propagated e)
     | inr a => Return a
     end, add_encode_call s w).

(** ** The module *)

(** The fallback of every [os.getenv("MODEL_NAME", "all-MiniLM-L6-v2")]. *)
Definition DEFAULT_MODEL_NAME : string := "all-MiniLM-L6-v2".

(** [lifespan], the part before [yield]. *)
Definition lifespan_startup : M unit :=
  let* model_name := getenv "MODEL_NAME" DEFAULT_MODEL_NAME in
  logger_info ("Loading model: " ++ model_name) >>
  try_except
    (let* m := SentenceTransformer_new model_name in
     assign_model m >>
     logger_info ("Model loaded successfully: " ++ model_name))
    (fun e =>
       logger_error ("Failed to load model: " ++ str e) >>
       raise e).

(** [lifespan], the part after [yield]. *)
Definition lifespan_shutdown : M unit :=
  logger_info "Shutting down embedding service".

(** [@app.get("/health")] *)
Definition health_check : M PyDict :=
  let* m := get_model in
  match m with
  | None => raise (HTTPException 503 "Model not loaded")
  | Some _ => ret [("status", PyStr "healthy"); ("model_loaded", PyBool true)]
  end.

(** [@app.get("/")] *)
Definition root : M PyDict :=
  let* name := getenv "MODEL_NAME" DEFAULT_MODEL_NAME in
  ret [("service", PyStr "sentence-transformers-embedding");
       ("version", PyStr "1.0.0");
       ("model", PyStr name);
       ("status", PyStr "running")].

(** [@app.post("/embeddings", response_model=EmbeddingResponse)] *)
Definition generate_embeddings (request : EmbeddingRequest) : M EmbeddingResponse :=
  let* m := get_model in
  match m with
  | None => raise (HTTPException 503 "Model not loaded")
  | Some mdl =>
    when (Nat.eqb (length (sentences request)) 0)
         (raise (HTTPException 400 "No sentences provided")) >>
    when (Nat.ltb 100 (length (sentences request)))
         (raise (HTTPException 400 "Too many sentences (max 100)")) >>
    try_except
      (logger_info ("Generating embeddings for "
                    ++ pretty (length (sentences request)) ++ " sentences") >>
       let* embs := model_encode mdl (sentences request) in
       let embeddings_list := tolist embs in
       logger_info ("Generated embeddings with shape: "
                    ++ str_shape (shape embs)) >>
       ret (mkResponse embeddings_list))
      (fun e =>
         logger_error ("Error generating embeddings: " ++ str e) >>
         raise (HTTPException 500 ("Failed to generate embeddings: " ++ str e)))
  end.

(** [@app.get("/model/info")] *)
Definition model_info : M PyDict :=
  let* m := get_model in
  match m with
  | None => raise (HTTPException 503 "Model not loaded")
  | Some mdl =>
    let* name := getenv "MODEL_NAME" DEFAULT_MODEL_NAME in
    ret [("model_name", PyStr name);
         ("max_seq_length",
          match max_seq_length (pretrained mdl) with
          | Some n => PyInt n
          | None => PyStr "unknown"
          end);
         ("embedding_dimension",
          PyInt (Z.of_nat (get_sentence_embedding_dimension (pretrained mdl))));
         ("device",
          PyStr (match device (pretrained mdl) with
                 | Some d => d
                 | None => "unknown"
                 end))]
  end.

(** ** The application and its life cycle *)

(** The routes registered on [app]. *)
Inductive Request :=
| GET_root
| GET_health
| GET_model_info
| POST_embeddings (body : EmbeddingRequest).

Inductive Body :=
| Json (d : PyDict)
| Embeddings (r : EmbeddingResponse).

Definition app (r : Request) : M Body :=
  match r with
  | GET_root => let* d := root in ret (Json d)
  | GET_health => let* d := health_check in ret (Json d)
  | GET_model_info => let* d := model_info in ret (Json d)
  | POST_embeddings body => let* e := generate_embeddings body in ret (Embeddings e)
  end.

(** [FastAPI(lifespan=lifespan)]: the server first runs [lifespan] up to its
    [yield]; routes are served only once that has completed, and an
    exception raised there ends the start-up. *)
Inductive Phase := Starting | Serving | Aborted | Stopped.

Record Server := mkServer { phase : Phase; world : World }.

Inductive step : Server -> Server -> Prop :=
| step_startup_complete w w' :
    lifespan_startup w = (Return tt, w') ->
    step (mkServer Starting w) (mkServer Serving w')
| step_startup_failed w e w' :
    lifespan_startup w = (Raise e, w') ->
    step (mkServer Starting w) (mkServer Aborted w')
| step_request w r o w' :
    app r w = (o, w') ->
    step (mkServer Serving w) (mkServer Serving w')
| step_shutdown w o w' :
    lifespan_shutdown w = (o, w') ->
    step (mkServer Serving w) (mkServer Stopped w').

(** The process as the module body leaves it: [model = None] (line 21) and
    nothing logged or encoded yet. *)
Definition boot (env : gmap string string)
    (h : string -> PyException + Pretrained) : Server :=
  mkServer Starting (mkWorld None env h [] []).

Definition reachable (env : gmap string string)
    (h : string -> PyException + Pretrained) (s : Server) : Prop :=
  rtc step (boot env h) s.

(** ** Vocabulary of the specification *)

(** [c.lower()] on an ASCII character. *)
Definition lower_ascii (c : ascii) : ascii :=
  let n := nat_of_ascii c in
  if Nat.leb 65 n && Nat.leb n 90 then ascii_of_nat (n + 32) else c.

Fixpoint str_lower (s : string) : string :=
  match s with
  | EmptyString => EmptyString
  | String c s' => String (lower_ascii c) (str_lower s')
  end.

(** [p in s] on strings. *)
Fixpoint is_infix (p s : string) : bool :=
  String.prefix p s ||
  match s with
  | EmptyString => false
  | String _ s' => is_infix p s'
  end.

(** An error detail references a phrase when it contains it, letter case
    aside. *)
Definition mentions (detail phrase : string) : bool :=
  is_infix (str_lower phrase) (str_lower detail).

(** The batch bounds of section 3: between 1 and 100 sentences. *)
Definition valid_batch (request : EmbeddingRequest) : Prop :=
  1 <= length (sentences request) <= 100.

(** The three preconditions of section 4.2, in the order the specification
    lists them, each with the failure it signals. *)
Definition spec_preconditions (request : EmbeddingRequest) (w : World)
    : list (bool * Raised) :=
  [ (match model w with None => true | Some _ => false end,
     HTTPException 503 "Model not loaded");
    (match sentences request with [] => true | _ :: _ => false end,
     HTTPException 400 "No sentences provided");
    (Nat.ltb 100 (length (sentences request)),
     HTTPException 400 "Too many sentences (max 100)") ].

(** The failure of the first violated precondition, if any. *)
Definition spec_first_violation (request : EmbeddingRequest) (w : World)
    : option Raised :=
  snd <$> List.find fst (spec_preconditions request w).

(** The value of [os.getenv("MODEL_NAME", "all-MiniLM-L6-v2")] in [w]. *)
Definition configured_model_name (w : World) : string :=
  default DEFAULT_MODEL_NAME (environ w !! "MODEL_NAME").

(** The [try] block of [generate_embeddings] with its [except] clause, run
    in [w] with the model [mdl]: what it yields and what it leaves behind. *)
Definition encoded (w : World) (request : EmbeddingRequest)
    (mdl : SentenceTransformer) : Outcome EmbeddingResponse * World :=
  let n := length (sentences request) in
  let w1 := add_log (mkLog INFO ("Generating embeddings for "
                                 ++ pretty n ++ " sentences")) w in
  let w2 := add_encode_call (sentences request) w1 in
  match encode (pretrained mdl) (sentences request) with
  | inr a =>
      (Return (mkResponse (tolist a)),
       add_log (mkLog INFO ("Generated embeddings with shape: "
                            ++ str_shape (shape a))) w2)
  | inl e =>
      (Raise (HTTPException 500 ("Failed to generate embeddings: " ++ exc_str e)),
       add_log (mkLog ERROR ("Error generating embeddings: " ++ exc_str e)) w2)
  end.

(** [w'] differs from [w] at most in the log and in the trace of encode
    calls. *)
Definition same_process (w w' : World) : Prop :=
  model w' = model w /\ environ w' = environ w /\ hub w' = hub w.

(** A handle is usable when it is what the hub serves under its name. *)
Definition usable (h : string -> PyException + Pretrained)
    (m : SentenceTransformer) : Prop :=
  h (model_name_or_path m) = inr (pretrained m).

(** The invariant of the life cycle: the hub is never replaced, the handle
    is absent before and after a failed start-up, and it is present and
    usable while routes are served. *)
Definition lifecycle_inv (h : string -> PyException + Pretrained)
    (s : Server) : Prop :=
  hub (world s) = h /\
  match phase s with
  | Starting | Aborted => model (world s) = None
  | Serving | Stopped => exists m, model (world s) = Some m /\ usable h m
  end.

(** ** Sample processes *)

Module Sample.

(** A three-dimensional model that embeds every sentence alike. *)
Definition tiny : Pretrained :=
  mkPretrained (Some 256%Z) (Some "cpu") 3
    (fun s => inr (mkArray (map (fun _ => [0.5%float; 0.25%float; 0.125%float]) s))).

(** A model whose encoder always fails. *)
Definition broken : Pretrained :=
  mkPretrained None None 3
    (fun _ => inl (mkExc "RuntimeError" "CUDA out of memory")).

(** A hub that serves the default model and one other. *)
Definition catalogue (name : string) : PyException + Pretrained :=
  if String.eqb name "all-MiniLM-L6-v2" then inr tiny
  else if String.eqb name "broken" then inr broken
  else inl (mkExc "OSError" (name ++ " is not a valid model identifier")).

Definition cold (env : gmap string string) : World :=
  mkWorld None env catalogue [] [].

Definition warm (env : gmap string string) : World :=
  mkWorld (Some (mkModel "all-MiniLM-L6-v2" tiny)) env catalogue [] [].

Definition faulty : World :=
  mkWorld (Some (mkModel "broken" broken)) ∅ catalogue [] [].

Definition hello : EmbeddingRequest := mkRequest ["hello world"] None.

Definition oversized : EmbeddingRequest := mkRequest (repeat "a" 101) None.

End Sample.

(** ** Runs of requests *)

(** The world after the server has handled [rs] one after the other. *)
Definition serve (rs : list Request) (w : World) : World :=
  fold_left (fun w' r => snd (app r w')) rs w.

(** The one route whose handler calls [model.encode]. *)
Definition is_inference (r : Request) : bool :=
  match r with
  | POST_embeddings _ => true
  | _ => false
  end.

(** The sizes of batch that pass the two guards of [generate_embeddings]. *)
Definition within_cap (batch : list string) : Prop :=
  1 <= length batch <= 100.

(** The name the server of [boot env h] is configured with. *)
Definition boot_model_name (env : gmap string string) : string :=
  default DEFAULT_MODEL_NAME (env !! "MODEL_NAME").

Module Scenario.

(** The sample process after a start-up with [MODEL_NAME] unset. *)
Definition started : World :=
  snd (lifespan_startup (world (boot ∅ Sample.catalogue))).

(** The server after it has then embedded one sentence. *)
Definition served : Server :=
  mkServer Serving (snd (app (POST_embeddings Sample.hello) started)).

(** A morning of traffic: probes, one good batch, one empty, one too big. *)
Definition traffic : list Request :=
  [GET_health; GET_root; POST_embeddings Sample.hello; GET_model_info;
   POST_embeddings (mkRequest [] None); POST_embeddings Sample.oversized].

End Scenario.

(** ** The test runners under [scripts/] *)

Module Scripts.

(** One call of a test function during a run of a script: the lines it
    printed, and the boolean it returned or the [Exception] it raised.  The
    test functions drive an external server, so their runs are inputs. *)
Record TestRun := mkRun {
  printed : list string;
  outcome : PyException + bool
}.

(** How a script ends: [sys.exit(code)], or an exception nobody caught. *)
Inductive Ending :=
| Exit (code : Z)
| Uncaught (e : PyException).

(** Python's [s * n] on strings. *)
Fixpoint str_times (s : string) (n : nat) : string :=
  match n with
  | O => ""
  | S k => s ++ str_times s k
  end.

(** The string ["\n"]. *)
Definition newline : string := String (ascii_of_nat 10) "".

(** [except FileNotFoundError]. *)
Definition is_FileNotFoundError (e : PyException) : bool :=
  String.eqb (exc_class e) "FileNotFoundError".

(** The number of tests of a run that returned [True]. *)
Definition count_passed (tests : list (string * TestRun)) : nat :=
  length (List.filter
            (fun t => match outcome (snd t) with inr true => true | _ => false end)
            tests).

(** [int] to [float], exact on the counts of a test run. *)
Fixpoint int_of_nat (n : nat) : PrimInt63.int :=
  match n with
  | O => 0%uint63
  | S k => PrimInt63.add (int_of_nat k) 1%uint63
  end.

Definition float_of_nat (n : nat) : float := PrimFloat.of_uint63 (int_of_nat n).

(** [scripts/test_mcp.py] *)
Module TestMcp.

(** The [for] loop of [main], from the value of [passed] and the output so
    far. *)
Fixpoint run_tests (tests : list (string * TestRun)) (passed : nat)
    (out : list string) : nat * list string :=
  match tests with
  | [] => (passed, out)
  | (test_name, t) :: rest =>
      let out := (out ++ printed t)%list in
      match outcome t with
      | inr true =>
          run_tests rest (S passed)
            (out ++ [("âœ… " ++ test_name ++ " - PASSED")%string])%list
      | inr false =>
          run_tests rest passed
            (out ++ [("âŒ " ++ test_name ++ " - FAILED")%string])%list
      | inl e =>
          run_tests rest passed
            (out ++ [("âŒ " ++ test_name ++ " - ERROR: " ++ exc_str e)%string])%list
      end
  end.

(** [main()], given what [subprocess.run(['./amem-server', '--help'])]
    raised, if anything, and the runs of the listed tests. *)
Definition main (probe : option PyException) (tests : list (string * TestRun))
    : Ending * list string :=
  let out := ["A-MEM MCP Server Test Suite"; str_times "=" 40] in
  match probe with
  | Some e =>
      if is_FileNotFoundError e
      then (Exit 1, (out ++ [("Error: amem-server binary not found. Please run 'make build' first.")%string])%list)
      else (Uncaught e, out)
  | None =>
      let total := length tests in
      let (passed, out) := run_tests tests 0 out in
      let out := (out ++ [(newline ++ str_times "=" 40)%string;
                          ("Test Results: " ++ pretty passed ++ "/"
                           ++ pretty total ++ " passed")%string])%list in
      if Nat.eqb passed total
      then (Exit 0, (out ++ [("ðŸŽ‰ All tests passed!")%string])%list)
      else (Exit 1, (out ++ [("âš ï¸  Some tests failed. Check the output above.")%string])%list)
  end.

End TestMcp.

(** [scripts/test_phase2.py] *)
Module TestPhase2.

(** The [for] loop of [main]; the pause between two tests prints
    nothing. *)
Fixpoint run_tests (tests : list (string * TestRun)) (passed : nat)
    (out : list string) : nat * list string :=
  match tests with
  | [] => (passed, out)
  | (test_name, t) :: rest =>
      let out := (out ++ printed t)%list in
      match outcome t with
      | inr true => run_tests rest (S passed) out
      | inr false => run_tests rest passed out
      | inl e =>
          run_tests rest passed
            (out ++ [("‚ùå " ++ test_name ++ " - ERROR: " ++ exc_str e)%string])%list
      end
  end.

(** [passed >= total * 0.8]; the literal [0.8] is the double
    [0x1.999999999999ap-1]. *)
Definition pass_rate_met (passed total : nat) : bool :=
  PrimFloat.leb (PrimFloat.mul (float_of_nat total) 0x1.999999999999ap-1%float)
                (float_of_nat passed).

(** [main()], given what the probe of the binary raised, if anything, and
    the runs of the listed tests. *)
Definition main (probe : option PyException) (tests : list (string * TestRun))
    : Ending * list string :=
  let out := ["üöÄ A-MEM MCP Server Phase 2 Test Suite"; str_times "=" 50; ""] in
  match probe with
  | Some e =>
      if is_FileNotFoundError e
      then (Exit 1, (out ++ [("Error: amem-server binary not found. Please run 'make build' first.")%string])%list)
      else (Uncaught e, out)
  | None =>
      let total := length tests in
      let (passed, out) := run_tests tests 0 out in
      let out := (out ++ [(newline ++ str_times "=" 50)%string;
                          ("Phase 2 Test Results: " ++ pretty passed ++ "/"
                           ++ pretty total ++ " passed")%string])%list in
      if Nat.eqb passed total
      then (Exit 0, (out ++ [("üéâ All Phase 2 tests passed! System ready for production.")%string])%list)
      else if pass_rate_met passed total
      then (Exit 0, (out ++ [("‚ö†Ô∏è  Most tests passed. System is functional with minor issues.")%string])%list)
      else (Exit 1, (out ++ [("‚ùå Multiple test failures. Please check the implementation.")%string])%list)
  end.

End TestPhase2.

(** A run of the six tests of phase 2 in which the metrics test fails. *)
Definition one_failure : list (string * TestRun) :=
  [("Enhanced Memory Storage", mkRun [] (inr true));
   ("Advanced Memory Evolution", mkRun [] (inr true));
   ("Enhanced Memory Retrieval", mkRun [] (inr true));
   ("Metrics Endpoint", mkRun ["Metrics test error: connection refused"] (inr false));
   ("Health Endpoint", mkRun [] (inr true));
   ("Docker Services Config", mkRun [] (inr true))].

End Scripts.

(** ** Running the monad *)

(** Unfolds the primitive operations of the monad at a world. *)
Ltac run :=
  cbv [bind ret raise try_except when get_model assign_model getenv
       logger_info logger_error SentenceTransformer_new model_encode].

(** Settles the two guards on the batch size from bounds in the context. *)
Ltac batch_guards request :=
  destruct (Nat.eqb_spec (length (sentences request)) 0);
  [try lia|];
  destruct (Nat.ltb_spec 100 (length (sentences request)));
  try lia.

Create HintDb service.

(** ** [generate_embeddings], case by case *)

Lemma generate_embeddings_not_loaded w request :
  model w = None ->
  generate_embeddings request w = (Raise (HTTPException 503 "Model not loaded"), w).
Proof. intros H. unfold generate_embeddings. run. now rewrite H. Qed.

Lemma generate_embeddings_empty w request mdl :
  model w = Some mdl ->
  sentences request = [] ->
  generate_embeddings request w = (Raise (HTTPException 400 "No sentences provided"), w).
Proof. intros H E. unfold generate_embeddings. run. now rewrite H, E. Qed.

Lemma generate_embeddings_too_many w request mdl :
  model w = Some mdl ->
  100 < length (sentences request) ->
  generate_embeddings request w
  = (Raise (HTTPException 400 "Too many sentences (max 100)"), w).
Proof.
  intros H L. unfold generate_embeddings. run. rewrite H.
  batch_guards request. reflexivity.
Qed.

Lemma generate_embeddings_valid w request mdl :
  model w = Some mdl ->
  valid_batch request ->
  generate_embeddings request w = encoded w request mdl.
Proof.
  intros H [L U]. unfold generate_embeddings, encoded. run. rewrite H.
  batch_guards request.
  now destruct (encode (pretrained mdl) (sentences request)).
Qed.

(** Every run of the handler is one of the four cases above. *)
Lemma generate_embeddings_cases w request :
  (model w = None /\
   generate_embeddings request w = (Raise (HTTPException 503 "Model not loaded"), w))
  \/ (exists mdl, model w = Some mdl /\
      ((sentences request = [] /\
        generate_embeddings request w
        = (Raise (HTTPException 400 "No sentences provided"), w))
       \/ (100 < length (sentences request) /\
           generate_embeddings request w
           = (Raise (HTTPException 400 "Too many sentences (max 100)"), w))
       \/ (valid_batch request /\ generate_embeddings request w = encoded w request mdl))).
Proof.
  destruct (model w) as [mdl|] eqn:H.
  - right. exists mdl. split; [reflexivity|].
    destruct (list_eq_nil_dec (sentences request)) as [E|E].
    + left. eauto using generate_embeddings_empty.
    + destruct (le_lt_dec (length (sentences request)) 100) as [U|G].
      * right; right.
        assert (V : valid_batch request).
        { unfold valid_batch. destruct (sentences request); [congruence|simpl in *; lia]. }
        eauto using generate_embeddings_valid.
      * right; left. eauto using generate_embeddings_too_many.
  - left. eauto using generate_embeddings_not_loaded.
Qed.

(** ** The read endpoints *)

Lemma health_check_not_loaded w :
  model w = None ->
  health_check w = (Raise (HTTPException 503 "Model not loaded"), w).
Proof. intros H. unfold health_check. run. now rewrite H. Qed.

Lemma health_check_loaded w mdl :
  model w = Some mdl ->
  health_check w
  = (Return [("status", PyStr "healthy"); ("model_loaded", PyBool true)], w).
Proof. intros H. unfold health_check. run. now rewrite H. Qed.

Lemma model_info_not_loaded w :
  model w = None ->
  model_info w = (Raise (HTTPException 503 "Model not loaded"), w).
Proof. intros H. unfold model_info. run. now rewrite H. Qed.

Lemma model_info_loaded w mdl :
  model w = Some mdl ->
  exists d,
    model_info w = (Return d, w) /\
    dict_get "model_name" d = Some (PyStr (configured_model_name w)) /\
    dict_get "embedding_dimension" d
    = Some (PyInt (Z.of_nat (get_sentence_embedding_dimension (pretrained mdl)))).
Proof.
  intros H. unfold model_info. run. rewrite H.
  eexists. split; [reflexivity|]. split; reflexivity.
Qed.

Lemma root_payload w :
  root w
  = (Return [("service", PyStr "sentence-transformers-embedding");
             ("version", PyStr "1.0.0");
             ("model", PyStr (configured_model_name w));
             ("status", PyStr "running")], w).
Proof. reflexivity. Qed.

(** ** What a handler leaves untouched *)

Lemma same_process_refl w : same_process w w.
Proof. now repeat split. Qed.

Lemma same_process_encoded w request mdl :
  same_process w (snd (encoded w request mdl)).
Proof.
  unfold encoded.
  now destruct (encode (pretrained mdl) (sentences request)); repeat split.
Qed.

#[export] Hint Resolve same_process_refl same_process_encoded : service.

Lemma generate_embeddings_frame request w :
  same_process w (snd (generate_embeddings request w)).
Proof.
  destruct (generate_embeddings_cases w request)
    as [[_ ->]|(mdl & _ & [[_ ->]|[[_ ->]|[_ ->]]])];
    auto with service.
Qed.

Lemma app_frame r w : same_process w (snd (app r w)).
Proof.
  destruct r as [| | |body]; simpl.
  - apply same_process_refl.
  - unfold health_check. run. destruct (model w); apply same_process_refl.
  - unfold model_info. run. destruct (model w); apply same_process_refl.
  - unfold bind. pose proof (generate_embeddings_frame body w) as F.
    now destruct (generate_embeddings body w) as [[e|e] w'].
Qed.

(** ** Start-up and the life cycle *)

Lemma lifespan_startup_loaded w p :
  hub w (configured_model_name w) = inr p ->
  lifespan_startup w
  = (Return tt,
     add_log (mkLog INFO ("Model loaded successfully: " ++ configured_model_name w))
       (set_model (Some (mkModel (configured_model_name w) p))
          (add_log (mkLog INFO ("Loading model: " ++ configured_model_name w)) w))).
Proof.
  intros H. unfold lifespan_startup. run. simpl.
  fold (configured_model_name w). now rewrite H.
Qed.

Lemma lifespan_startup_failed w e :
  hub w (configured_model_name w) = inl e ->
  lifespan_startup w
  = (Raise (Propagated e),
     add_log (mkLog ERROR ("Failed to load model: " ++ exc_str e))
       (add_log (mkLog INFO ("Loading model: " ++ configured_model_name w)) w)).
Proof.
  intros H. unfold lifespan_startup. run. simpl.
  fold (configured_model_name w). now rewrite H.
Qed.

Lemma lifecycle_inv_boot env h : lifecycle_inv h (boot env h).
Proof. now split. Qed.

Lemma lifecycle_inv_step h s s' :
  step s s' -> lifecycle_inv h s -> lifecycle_inv h s'.
Proof.
  intros St [Hh Hm]. destruct St as [w w' R|w e w' R|w r o w' R|w o w' R];
    simpl in *.
  - destruct (hub w (configured_model_name w)) as [e|p] eqn:L.
    + rewrite (lifespan_startup_failed w e L) in R. discriminate.
    + rewrite (lifespan_startup_loaded w p L) in R. injection R as <-.
      split; [exact Hh|]. simpl. eexists. split; [reflexivity|].
      unfold usable. simpl. now rewrite <- Hh.
  - destruct (hub w (configured_model_name w)) as [x|p] eqn:L.
    + rewrite (lifespan_startup_failed w x L) in R. injection R as _ <-.
      split; [exact Hh|exact Hm].
    + rewrite (lifespan_startup_loaded w p L) in R. discriminate.
  - pose proof (app_frame r w) as F. rewrite R in F.
    destruct F as (Fm & _ & Fh). simpl in Fm, Fh.
    split; simpl; [now rewrite Fh|now rewrite Fm].
  - unfold lifespan_shutdown in R. run. injection R as _ <-.
    split; [exact Hh|exact Hm].
Qed.

Lemma lifecycle_inv_reachable env h s :
  reachable env h s -> lifecycle_inv h s.
Proof.
  unfold reachable. revert s. apply rtc_ind_r.
  - apply lifecycle_inv_boot.
  - intros y z _ St IH. eauto using lifecycle_inv_step.
Qed.

(** When the configured model cannot be loaded, the server leaves
    [Starting] only for [Aborted]. *)
Lemma failed_startup_never_serves env h e s :
  h (configured_model_name (world (boot env h))) = inl e ->
  reachable env h s ->
  s = boot env h \/ phase s = Aborted.
Proof.
  intros L. unfold reachable. revert s. apply rtc_ind_r; [now left|].
  intros y z _ St [->|A].
  - right. inversion St as [w w' R|w x w' R| |]; subst; [|reflexivity].
    change (lifespan_startup (world (boot env h)) = (Return tt, w')) in R.
    rewrite (lifespan_startup_failed (world (boot env h)) e L) in R.
    discriminate.
  - destruct St; simpl in A; discriminate.
Qed.

(** * The claims *)

(** C1: with a loaded model and a batch of 1 to 100 sentences, when
    [model.encode] returns an array with one row per sentence, each of the
    model's embedding dimension, [generate_embeddings] returns a response
    whose [embeddings] list is as long as the sentence list and whose
    vectors all have the length [get_sentence_embedding_dimension()]
    reports. *)
Theorem generate_embeddings_shape
    (w : World) (mdl : SentenceTransformer) (request : EmbeddingRequest)
    (a : ndarray) :
  model w = Some mdl ->
  1 <= length (sentences request) <= 100 ->
  encode (pretrained mdl) (sentences request) = inr a ->
  length (rows a) = length (sentences request) ->
  Forall (fun v => length v = get_sentence_embedding_dimension (pretrained mdl))
         (rows a) ->
  exists resp w',
    generate_embeddings request w = (Return resp, w') /\
    length (embeddings resp) = length (sentences request) /\
    Forall (fun v => length v = get_sentence_embedding_dimension (pretrained mdl))
           (embeddings resp).
Proof.
  intros Hm Hv He Hn Hd.
  rewrite (generate_embeddings_valid w request mdl Hm Hv).
  unfold encoded. rewrite He. do 2 eexists. split; [reflexivity|].
  simpl. unfold tolist. split; assumption.
Qed.

Lemma generate_embeddings_shape_witness :
  exists resp w',
    generate_embeddings Sample.hello (Sample.warm ∅) = (Return resp, w') /\
    length (embeddings resp) = 1 /\
    Forall (fun v => length v = 3) (embeddings resp).
Proof.
  apply (generate_embeddings_shape (Sample.warm ∅) (mkModel "all-MiniLM-L6-v2" Sample.tiny)
           Sample.hello
           (mkArray [[0.5%float; 0.25%float; 0.125%float]])).
  - reflexivity.
  - simpl. lia.
  - reflexivity.
  - reflexivity.
  - repeat constructor.
Defined.

(** C2: with a loaded model and an empty sentence list,
    [generate_embeddings] raises [HTTPException] with status 400 and a
    detail that references "no sentences provided"; the world is left as it
    was, so [model.encode] is not called. *)
Theorem empty_batch_rejected
    (w : World) (mdl : SentenceTransformer) (request : EmbeddingRequest) :
  model w = Some mdl ->
  sentences request = [] ->
  generate_embeddings request w
  = (Raise (HTTPException 400 "No sentences provided"), w) /\
  mentions "No sentences provided" "no sentences provided" = true /\
  encode_calls (snd (generate_embeddings request w)) = encode_calls w.
Proof.
  intros Hm He.
  rewrite (generate_embeddings_empty w request mdl Hm He).
  repeat split.
Qed.

Lemma empty_batch_rejected_witness :
  generate_embeddings (mkRequest [] None) (Sample.warm ∅)
  = (Raise (HTTPException 400 "No sentences provided"), Sample.warm ∅) /\
  mentions "No sentences provided" "no sentences provided" = true /\
  encode_calls (snd (generate_embeddings (mkRequest [] None) (Sample.warm ∅))) = [].
Proof.
  apply (empty_batch_rejected (Sample.warm ∅) (mkModel "all-MiniLM-L6-v2" Sample.tiny)
           (mkRequest [] None)); reflexivity.
Defined.

(** C3: with a loaded model and more than 100 sentences (101 in
    particular), [generate_embeddings] raises [HTTPException] with status
    400 and a detail that references "too many sentences"; the world is left
    as it was, so [model.encode] is not called. *)
Theorem oversized_batch_rejected
    (w : World) (mdl : SentenceTransformer) (request : EmbeddingRequest) :
  model w = Some mdl ->
  100 < length (sentences request) ->
  generate_embeddings request w
  = (Raise (HTTPException 400 "Too many sentences (max 100)"), w) /\
  mentions "Too many sentences (max 100)" "too many sentences" = true /\
  encode_calls (snd (generate_embeddings request w)) = encode_calls w.
Proof.
  intros Hm Hl.
  rewrite (generate_embeddings_too_many w request mdl Hm Hl).
  repeat split.
Qed.

Lemma oversized_batch_rejected_witness :
  length (sentences Sample.oversized) = 101 /\
  generate_embeddings Sample.oversized (Sample.warm ∅)
  = (Raise (HTTPException 400 "Too many sentences (max 100)"), Sample.warm ∅) /\
  mentions "Too many sentences (max 100)" "too many sentences" = true /\
  encode_calls (snd (generate_embeddings Sample.oversized (Sample.warm ∅))) = [].
Proof.
  split; [reflexivity|].
  apply (oversized_batch_rejected (Sample.warm ∅)
           (mkModel "all-MiniLM-L6-v2" Sample.tiny) Sample.oversized).
  - reflexivity.
  - simpl. lia.
Defined.

(** C4: while the module-level [model] is [None], [health_check],
    [model_info] and [generate_embeddings] all raise [HTTPException] with
    status 503; once it holds a model, [health_check] returns a payload in
    which [model_loaded] is [True]. *)
Theorem unavailable_until_loaded (w : World) :
  (model w = None ->
   health_check w = (Raise (HTTPException 503 "Model not loaded"), w) /\
   model_info w = (Raise (HTTPException 503 "Model not loaded"), w) /\
   forall request,
     generate_embeddings request w
     = (Raise (HTTPException 503 "Model not loaded"), w)) /\
  (forall mdl, model w = Some mdl ->
   exists d,
     health_check w = (Return d, w) /\
     dict_get "status" d = Some (PyStr "healthy") /\
     dict_get "model_loaded" d = Some (PyBool true)).
Proof.
  split.
  - intros H. split; [|split].
    + now apply health_check_not_loaded.
    + now apply model_info_not_loaded.
    + intros request. now apply generate_embeddings_not_loaded.
  - intros mdl H. rewrite (health_check_loaded w mdl H).
    eexists. split; [reflexivity|]. split; reflexivity.
Qed.

Lemma unavailable_until_loaded_witness :
  (health_check (Sample.cold ∅)
   = (Raise (HTTPException 503 "Model not loaded"), Sample.cold ∅) /\
   model_info (Sample.cold ∅)
   = (Raise (HTTPException 503 "Model not loaded"), Sample.cold ∅) /\
   forall request,
     generate_embeddings request (Sample.cold ∅)
     = (Raise (HTTPException 503 "Model not loaded"), Sample.cold ∅)) /\
  (exists d,
     health_check (Sample.warm ∅) = (Return d, Sample.warm ∅) /\
     dict_get "status" d = Some (PyStr "healthy") /\
     dict_get "model_loaded" d = Some (PyBool true)).
Proof.
  split.
  - apply (proj1 (unavailable_until_loaded (Sample.cold ∅))). reflexivity.
  - apply (proj2 (unavailable_until_loaded (Sample.warm ∅))
             (mkModel "all-MiniLM-L6-v2" Sample.tiny)).
    reflexivity.
Defined.

(** C5: [generate_embeddings] checks its preconditions in the order of the
    specification: model not loaded, then empty list, then more than 100
    sentences.  With no model it raises the 503 error whatever the sentence
    list is; whenever some precondition is violated it raises the failure of
    the first violated one and changes nothing; when none is violated it
    goes on to encode the batch. *)
Theorem preconditions_checked_in_order (w : World) (request : EmbeddingRequest) :
  (model w = None ->
   generate_embeddings request w
   = (Raise (HTTPException 503 "Model not loaded"), w)) /\
  (forall e, spec_first_violation request w = Some e ->
             generate_embeddings request w = (Raise e, w)) /\
  (spec_first_violation request w = None ->
   exists mdl, model w = Some mdl /\ valid_batch request /\
               generate_embeddings request w = encoded w request mdl).
Proof.
  split; [apply generate_embeddings_not_loaded|].
  unfold spec_first_violation, spec_preconditions.
  destruct (generate_embeddings_cases w request)
    as [[Hm ->]|(mdl & Hm & [[E ->]|[[G ->]|[V ->]]])]; rewrite Hm; simpl.
  - split; [intros e [= <-]; reflexivity|discriminate].
  - rewrite E. simpl. split; [intros e [= <-]; reflexivity|discriminate].
  - destruct (sentences request) as [|s l] eqn:E; [simpl in G; lia|].
    destruct (Nat.ltb_spec 100 (length (s :: l))) as [_|U]; [|lia]. simpl.
    split; [intros e [= <-]; reflexivity|discriminate].
  - destruct V as [L U].
    destruct (sentences request) as [|s l] eqn:E; [simpl in L; lia|].
    destruct (Nat.ltb_spec 100 (length (s :: l))) as [G|_]; [lia|]. simpl.
    split; [discriminate|]. intros _. exists mdl.
    repeat split; solve [reflexivity | rewrite E; simpl in *; lia].
Qed.

Lemma preconditions_checked_in_order_witness :
  generate_embeddings Sample.oversized (Sample.cold ∅)
  = (Raise (HTTPException 503 "Model not loaded"), Sample.cold ∅) /\
  generate_embeddings (mkRequest [] None) (Sample.cold ∅)
  = (Raise (HTTPException 503 "Model not loaded"), Sample.cold ∅) /\
  generate_embeddings (mkRequest [] None) (Sample.warm ∅)
  = (Raise (HTTPException 400 "No sentences provided"), Sample.warm ∅) /\
  generate_embeddings Sample.oversized (Sample.warm ∅)
  = (Raise (HTTPException 400 "Too many sentences (max 100)"), Sample.warm ∅) /\
  exists mdl, model (Sample.warm ∅) = Some mdl /\ valid_batch Sample.hello /\
              generate_embeddings Sample.hello (Sample.warm ∅)
              = encoded (Sample.warm ∅) Sample.hello mdl.
Proof.
  split; [|split; [|split; [|split]]].
  - apply (proj1 (preconditions_checked_in_order (Sample.cold ∅) Sample.oversized)).
    reflexivity.
  - apply (proj1 (proj2 (preconditions_checked_in_order (Sample.cold ∅) (mkRequest [] None)))).
    reflexivity.
  - apply (proj1 (proj2 (preconditions_checked_in_order (Sample.warm ∅) (mkRequest [] None)))).
    reflexivity.
  - apply (proj1 (proj2 (preconditions_checked_in_order (Sample.warm ∅) Sample.oversized))).
    reflexivity.
  - apply (proj2 (proj2 (preconditions_checked_in_order (Sample.warm ∅) Sample.hello))).
    reflexivity.
Defined.

(** C6: for a request that passes validation, when [model.encode] raises an
    exception [e], it is caught: [generate_embeddings] raises
    [HTTPException] with status 500 and detail
    ["Failed to generate embeddings: " ++ str(e)], after one error record
    carrying [str(e)].  No partial result exists: whatever the handler
    returns for a validated request is the whole array of a single encode
    call that succeeded. *)
Theorem inference_failure_is_internal_error
    (w : World) (mdl : SentenceTransformer) (request : EmbeddingRequest) :
  model w = Some mdl ->
  1 <= length (sentences request) <= 100 ->
  (forall e, encode (pretrained mdl) (sentences request) = inl e ->
     exists w',
       generate_embeddings request w
       = (Raise (HTTPException 500 ("Failed to generate embeddings: " ++ exc_str e)), w') /\
       mentions ("Failed to generate embeddings: " ++ exc_str e)
                "failed to generate embeddings" = true /\
       last (log w') = Some (mkLog ERROR ("Error generating embeddings: " ++ exc_str e)) /\
       encode_calls w' = (encode_calls w ++ [sentences request])%list) /\
  (forall resp w',
     generate_embeddings request w = (Return resp, w') ->
     exists a, encode (pretrained mdl) (sentences request) = inr a /\
               embeddings resp = tolist a /\
               length (embeddings resp) = fst (shape a)).
Proof.
  intros Hm Hv.
  rewrite (generate_embeddings_valid w request mdl Hm Hv).
  unfold encoded. split.
  - intros e ->. eexists. split; [reflexivity|]. simpl.
    split; [reflexivity|]. split; [|reflexivity]. apply last_snoc.
  - intros resp w'.
    destruct (encode (pretrained mdl) (sentences request)) as [e|a]; [discriminate|].
    intros [= <- _]. exists a. repeat split.
Qed.

Lemma inference_failure_is_internal_error_witness :
  exists w',
    generate_embeddings Sample.hello Sample.faulty
    = (Raise (HTTPException 500 "Failed to generate embeddings: CUDA out of memory"), w') /\
    mentions "Failed to generate embeddings: CUDA out of memory"
             "failed to generate embeddings" = true /\
    last (log w') = Some (mkLog ERROR "Error generating embeddings: CUDA out of memory") /\
    encode_calls w' = [["hello world"]].
Proof.
  refine (proj1 (inference_failure_is_internal_error Sample.faulty
                   (mkModel "broken" Sample.broken) Sample.hello eq_refl _)
            (mkExc "RuntimeError" "CUDA out of memory") eq_refl).
  simpl. lia.
Defined.

(** C7: [root] always returns, with or without a loaded model, the payload
    made of the service name, the version, the configured model identifier
    and the fixed status "running"; it changes nothing, and its payload does
    not depend on the model handle. *)
Theorem root_static_payload (w : World) :
  root w
  = (Return [("service", PyStr "sentence-transformers-embedding");
             ("version", PyStr "1.0.0");
             ("model", PyStr (configured_model_name w));
             ("status", PyStr "running")], w) /\
  forall m : option SentenceTransformer,
    fst (root (set_model m w)) = fst (root w).
Proof.
  split; [apply root_payload|]. intros m. now rewrite !root_payload.
Qed.

(** C8: when [SentenceTransformer(model_name)] raises [e] during start-up,
    [lifespan] logs the model identifier (in the record written before the
    load) and the cause (in the error record), leaves [model] as it was and
    re-raises [e] itself.  A server booted with such a model aborts and
    never serves a route; and in every run, whatever the hub, a server that
    serves routes holds a model the hub really provided. *)
Theorem startup_failure_is_fatal :
  (forall (w : World) (e : PyException),
     hub w (configured_model_name w) = inl e ->
     exists w',
       lifespan_startup w = (Raise (Propagated e), w') /\
       log w' = (log w ++ [mkLog INFO ("Loading model: " ++ configured_model_name w);
                           mkLog ERROR ("Failed to load model: " ++ exc_str e)])%list /\
       model w' = model w) /\
  (forall env h e,
     h (configured_model_name (world (boot env h))) = inl e ->
     (exists w', step (boot env h) (mkServer Aborted w')) /\
     forall s, reachable env h s -> phase s <> Serving) /\
  (forall env h s,
     reachable env h s -> phase s = Serving ->
     exists m, model (world s) = Some m /\ usable h m).
Proof.
  split; [|split].
  - intros w e L. rewrite (lifespan_startup_failed w e L). eexists.
    split; [reflexivity|]. simpl. split; [|reflexivity].
    now rewrite <- app_assoc.
  - intros env h e L. split.
    + eexists. apply (step_startup_failed _ (Propagated e)).
      apply (lifespan_startup_failed (world (boot env h)) e L).
    + intros s R. destruct (failed_startup_never_serves env h e s L R) as [->|A].
      * discriminate.
      * rewrite A. discriminate.
  - intros env h s R P. destruct (lifecycle_inv_reachable env h s R) as [_ I].
    now rewrite P in I.
Qed.

Lemma startup_failure_is_fatal_witness :
  exists w',
    lifespan_startup (Sample.cold (<["MODEL_NAME" := "missing"]> ∅))
    = (Raise (Propagated (mkExc "OSError" "missing is not a valid model identifier")), w') /\
    log w' = [mkLog INFO "Loading model: missing";
              mkLog ERROR "Failed to load model: missing is not a valid model identifier"] /\
    model w' = None.
Proof.
  exact (proj1 startup_failure_is_fatal
           (Sample.cold (<["MODEL_NAME" := "missing"]> ∅))
           (mkExc "OSError" "missing is not a valid model identifier")
           eq_refl).
Defined.

(** C9: two requests that differ only in the optional [model] field are
    handled alike: same outcome, same log, same encode calls; and the
    module-level [model] is the same after the request as before. *)
Theorem request_model_field_ignored
    (s : list string) (m1 m2 : option string) (w : World) :
  generate_embeddings (mkRequest s m1) w = generate_embeddings (mkRequest s m2) w /\
  app (POST_embeddings (mkRequest s m1)) w = app (POST_embeddings (mkRequest s m2)) w /\
  model (snd (generate_embeddings (mkRequest s m1) w)) = model w.
Proof.
  split; [reflexivity|]. split; [reflexivity|].
  apply generate_embeddings_frame.
Qed.

(** C10, as the code has it: [root] and [model_info] report the value of
    [os.getenv("MODEL_NAME", "all-MiniLM-L6-v2")] read in the world of the
    request, not the name held by the loaded handle.  After a start-up in
    [w0], a request served in a world [w] whose resolved name (the variable,
    or the default when it is unset) differs from that of [w0] is told a
    name other than the one the model was loaded under. *)
Theorem reported_model_name_follows_environment :
  (forall w : World,
     (exists d, root w = (Return d, w) /\
                dict_get "model" d = Some (PyStr (configured_model_name w))) /\
     (forall mdl, model w = Some mdl ->
        exists d, model_info w = (Return d, w) /\
                  dict_get "model_name" d = Some (PyStr (configured_model_name w)))) /\
  (forall w0 w1 w : World,
     lifespan_startup w0 = (Return tt, w1) ->
     model w = model w1 ->
     configured_model_name w <> configured_model_name w0 ->
     exists mdl d_root d_info,
       model w = Some mdl /\
       model_name_or_path mdl = configured_model_name w0 /\
       root w = (Return d_root, w) /\
       model_info w = (Return d_info, w) /\
       dict_get "model" d_root = Some (PyStr (configured_model_name w)) /\
       dict_get "model_name" d_info = Some (PyStr (configured_model_name w)) /\
       configured_model_name w <> model_name_or_path mdl).
Proof.
  split.
  - intros w. split.
    + rewrite root_payload. eexists. split; reflexivity.
    + intros mdl H. destruct (model_info_loaded w mdl H) as (d & E & N & _).
      eauto.
  - intros w0 w1 w S Hm D.
    destruct (hub w0 (configured_model_name w0)) as [e|p] eqn:L.
    { rewrite (lifespan_startup_failed w0 e L) in S. discriminate. }
    rewrite (lifespan_startup_loaded w0 p L) in S. injection S as <-.
    simpl in Hm.
    destruct (model_info_loaded w _ Hm) as (d & E & N & _).
    eexists _, _, d. rewrite root_payload.
    repeat split; solve [eassumption | reflexivity].
Qed.

Lemma reported_model_name_follows_environment_witness :
  exists mdl d_root d_info,
    model (Sample.warm (<["MODEL_NAME" := "broken"]> ∅)) = Some mdl /\
    model_name_or_path mdl = "all-MiniLM-L6-v2" /\
    root (Sample.warm (<["MODEL_NAME" := "broken"]> ∅))
    = (Return d_root, Sample.warm (<["MODEL_NAME" := "broken"]> ∅)) /\
    model_info (Sample.warm (<["MODEL_NAME" := "broken"]> ∅))
    = (Return d_info, Sample.warm (<["MODEL_NAME" := "broken"]> ∅)) /\
    dict_get "model" d_root = Some (PyStr "broken") /\
    dict_get "model_name" d_info = Some (PyStr "broken") /\
    "broken" <> model_name_or_path mdl.
Proof.
  assert (D : configured_model_name (Sample.warm (<["MODEL_NAME" := "broken"]> ∅))
              <> configured_model_name (Sample.cold ∅))
    by (vm_compute; discriminate).
  exact (proj2 reported_model_name_follows_environment
           (Sample.cold ∅)
           (snd (lifespan_startup (Sample.cold ∅)))
           (Sample.warm (<["MODEL_NAME" := "broken"]> ∅))
           eq_refl eq_refl D).
Defined.

(** C10 read on the raw values of the variable does not hold.  Start
    with [MODEL_NAME] unset, so that the default model is loaded, then set
    [MODEL_NAME] to that same default: the variable has changed, and [root]
    and [model_info] still report the name the model was loaded under. *)
Lemma changed_variable_same_reported_name :
  lifespan_startup (Sample.cold ∅)
  = (Return tt, snd (lifespan_startup (Sample.cold ∅))) /\
  model (Sample.warm (<["MODEL_NAME" := "all-MiniLM-L6-v2"]> ∅))
  = model (snd (lifespan_startup (Sample.cold ∅))) /\
  environ (Sample.cold ∅) !! "MODEL_NAME" = None /\
  environ (Sample.warm (<["MODEL_NAME" := "all-MiniLM-L6-v2"]> ∅)) !! "MODEL_NAME"
  = Some "all-MiniLM-L6-v2" /\
  exists mdl d_root d_info,
    model (Sample.warm (<["MODEL_NAME" := "all-MiniLM-L6-v2"]> ∅)) = Some mdl /\
    fst (root (Sample.warm (<["MODEL_NAME" := "all-MiniLM-L6-v2"]> ∅))) = Return d_root /\
    fst (model_info (Sample.warm (<["MODEL_NAME" := "all-MiniLM-L6-v2"]> ∅))) = Return d_info /\
    dict_get "model" d_root = Some (PyStr (model_name_or_path mdl)) /\
    dict_get "model_name" d_info = Some (PyStr (model_name_or_path mdl)).
Proof.
  repeat split. do 3 eexists. repeat split.
Qed.

(** * Further properties of the module *)

(** ** Helper facts *)

Lemma read_route_keeps_world r w :
  is_inference r = false -> snd (app r w) = w.
Proof.
  destruct r as [| | |body]; simpl; [| | |discriminate]; intros _.
  - reflexivity.
  - unfold health_check. run. now destruct (model w).
  - unfold model_info. run. now destruct (model w).
Qed.

Lemma app_embeddings_world body w :
  snd (app (POST_embeddings body) w) = snd (generate_embeddings body w).
Proof.
  simpl. unfold bind. now destruct (generate_embeddings body w) as [[r|e] w'].
Qed.

Lemma encoded_encode_calls w request mdl :
  encode_calls (snd (encoded w request mdl))
  = (encode_calls w ++ [sentences request])%list.
Proof.
  unfold encoded. now destruct (encode (pretrained mdl) (sentences request)).
Qed.

(** A request to embed either leaves the trace of encode calls alone or
    adds the batch itself, and then the batch is within the cap. *)
Lemma generate_embeddings_encode_calls request w :
  encode_calls (snd (generate_embeddings request w)) = encode_calls w
  \/ (within_cap (sentences request) /\
      encode_calls (snd (generate_embeddings request w))
      = (encode_calls w ++ [sentences request])%list).
Proof.
  destruct (generate_embeddings_cases w request)
    as [[_ ->]|(mdl & _ & [[_ ->]|[[_ ->]|[V ->]]])]; auto.
  right. split; [exact V|apply encoded_encode_calls].
Qed.

Lemma app_encode_calls r w :
  encode_calls (snd (app r w)) = encode_calls w
  \/ (exists body, r = POST_embeddings body /\ within_cap (sentences body) /\
      encode_calls (snd (app r w)) = (encode_calls w ++ [sentences body])%list).
Proof.
  destruct (is_inference r) eqn:I.
  - destruct r as [| | |body]; try discriminate.
    rewrite app_embeddings_world.
    destruct (generate_embeddings_encode_calls body w) as [E|[V E]]; eauto.
  - left. now rewrite read_route_keeps_world.
Qed.

Lemma lifespan_startup_frame w :
  environ (snd (lifespan_startup w)) = environ w /\
  hub (snd (lifespan_startup w)) = hub w /\
  encode_calls (snd (lifespan_startup w)) = encode_calls w.
Proof.
  destruct (hub w (configured_model_name w)) as [e|p] eqn:L.
  - now rewrite (lifespan_startup_failed w e L).
  - now rewrite (lifespan_startup_loaded w p L).
Qed.

(** What every step of the life cycle keeps: the environment, the hub, and
    the cap on the batches sent to the encoder. *)
Lemma step_keeps_process s s' :
  step s s' ->
  environ (world s') = environ (world s) /\
  hub (world s') = hub (world s) /\
  (Forall within_cap (encode_calls (world s)) ->
   Forall within_cap (encode_calls (world s'))).
Proof.
  intros St. destruct St as [w w' R|w e w' R|w r o w' R|w o w' R]; simpl.
  - destruct (lifespan_startup_frame w) as (E & H & C).
    rewrite R in E, H, C. simpl in *. now rewrite E, H, C.
  - destruct (lifespan_startup_frame w) as (E & H & C).
    rewrite R in E, H, C. simpl in *. now rewrite E, H, C.
  - pose proof (app_frame r w) as F. pose proof (app_encode_calls r w) as C.
    rewrite R in F, C. destruct F as (_ & E & H). simpl in *.
    split; [exact E|]. split; [exact H|]. intros B.
    destruct C as [->|(body & _ & V & ->)]; [exact B|].
    apply Forall_app. split; [exact B|]. now constructor.
  - unfold lifespan_shutdown in R. run. injection R as _ <-. now simpl.
Qed.

Lemma model_info_same_process w w' :
  same_process w w' -> fst (model_info w') = fst (model_info w).
Proof.
  intros (Hm & He & _). unfold model_info. run. rewrite Hm.
  destruct (model w); simpl; [now rewrite He|reflexivity].
Qed.


(** ** The read endpoints *)

(** X1: [root], [health_check] and [model_info] only observe: whether they
    return or raise, the world after the call is the world before it, so
    they write no log record and never reach the encoder. *)
Theorem read_endpoints_change_nothing (w : World) :
  snd (root w) = w /\ snd (health_check w) = w /\ snd (model_info w) = w.
Proof.
  split; [reflexivity|]. split.
  - unfold health_check. run. now destruct (model w).
  - unfold model_info. run. now destruct (model w).
Qed.

(** X2: the dimension [model_info] reports is the length of the vectors
    [generate_embeddings] returns.  For a valid batch that the model encodes
    into rows of its own dimension, [model_info] gives the same payload
    before and after the request, and its [embedding_dimension] is the
    length of every vector of the response. *)
Theorem reported_dimension_matches_vectors
    (w : World) (mdl : SentenceTransformer) (request : EmbeddingRequest)
    (a : ndarray) :
  model w = Some mdl ->
  within_cap (sentences request) ->
  encode (pretrained mdl) (sentences request) = inr a ->
  Forall (fun v => length v = get_sentence_embedding_dimension (pretrained mdl))
         (rows a) ->
  exists info resp w',
    model_info w = (Return info, w) /\
    generate_embeddings request w = (Return resp, w') /\
    model_info w' = (Return info, w') /\
    Forall (fun v => dict_get "embedding_dimension" info
                     = Some (PyInt (Z.of_nat (length v))))
           (embeddings resp).
Proof.
  intros Hm Hv He Hd.
  destruct (model_info_loaded w mdl Hm) as (info & Hi & _ & Hdim).
  pose proof (generate_embeddings_frame request w) as F.
  pose proof (model_info_same_process _ _ F) as S.
  pose proof (proj2 (proj2 (read_endpoints_change_nothing
                              (snd (generate_embeddings request w))))) as K.
  rewrite (generate_embeddings_valid w request mdl Hm Hv) in *.
  unfold encoded in *. rewrite He in *. simpl in S, K.
  exists info. do 2 eexists. split; [exact Hi|]. split; [reflexivity|].
  split.
  - rewrite Hi in S. simpl in S.
    match goal with |- ?x = _ => destruct x as [o w''] end.
    simpl in S, K. now subst.
  - simpl. unfold tolist. eapply Forall_impl; [exact Hd|].
    intros v Hl. simpl in Hl. now rewrite Hl.
Qed.

Lemma reported_dimension_matches_vectors_witness :
  exists info resp w',
    model_info (Sample.warm ∅) = (Return info, Sample.warm ∅) /\
    generate_embeddings Sample.hello (Sample.warm ∅) = (Return resp, w') /\
    model_info w' = (Return info, w') /\
    Forall (fun v => dict_get "embedding_dimension" info
                     = Some (PyInt (Z.of_nat (length v))))
           (embeddings resp).
Proof.
  refine (reported_dimension_matches_vectors (Sample.warm ∅)
            (mkModel "all-MiniLM-L6-v2" Sample.tiny) Sample.hello
            (mkArray [[0.5%float; 0.25%float; 0.125%float]])
            eq_refl _ eq_refl _).
  - unfold within_cap. simpl. lia.
  - repeat constructor.
Defined.

(** ** Start-up *)

(** X3: when the hub serves the configured name, the start-up half of
    [lifespan] returns with [model] bound to a handle of that name holding
    what the hub served; it writes two info records, leaves the environment
    and the encoder alone, and [health_check] answers healthy from then
    on. *)
Theorem startup_success_binds_configured_model (w : World) (p : Pretrained) :
  hub w (configured_model_name w) = inr p ->
  exists w',
    lifespan_startup w = (Return tt, w') /\
    model w' = Some (mkModel (configured_model_name w) p) /\
    log w' = (log w ++ [mkLog INFO ("Loading model: " ++ configured_model_name w);
                        mkLog INFO ("Model loaded successfully: "
                                    ++ configured_model_name w)])%list /\
    environ w' = environ w /\
    encode_calls w' = encode_calls w /\
    health_check w'
    = (Return [("status", PyStr "healthy"); ("model_loaded", PyBool true)], w').
Proof.
  intros L. rewrite (lifespan_startup_loaded w p L). eexists.
  split; [reflexivity|]. simpl. split; [reflexivity|].
  split; [now rewrite <- app_assoc|]. split; [reflexivity|].
  split; [reflexivity|].
  now apply health_check_loaded with (mdl := mkModel (configured_model_name w) p).
Qed.

Lemma startup_success_binds_configured_model_witness :
  exists w',
    lifespan_startup (Sample.cold (<["MODEL_NAME" := "broken"]> ∅)) = (Return tt, w') /\
    model w' = Some (mkModel "broken" Sample.broken) /\
    log w' = [mkLog INFO "Loading model: broken";
              mkLog INFO "Model loaded successfully: broken"] /\
    environ w' = <["MODEL_NAME" := "broken"]> ∅ /\
    encode_calls w' = [] /\
    health_check w'
    = (Return [("status", PyStr "healthy"); ("model_loaded", PyBool true)], w').
Proof.
  exact (startup_success_binds_configured_model
           (Sample.cold (<["MODEL_NAME" := "broken"]> ∅)) Sample.broken eq_refl).
Defined.

(** ** Errors *)



(** ** The encoder *)

(** X5: a request to embed reaches the encoder exactly once, with the
    sentences of the request in their order, when a model is loaded and the
    batch has 1 to 100 sentences; in every other case the encoder is not
    called at all. *)
Theorem encoder_called_once_with_the_batch
    (w : World) (request : EmbeddingRequest) :
  (forall mdl, model w = Some mdl -> within_cap (sentences request) ->
     encode_calls (snd (generate_embeddings request w))
     = (encode_calls w ++ [sentences request])%list) /\
  (model w = None \/ sentences request = [] \/ 100 < length (sentences request) ->
     encode_calls (snd (generate_embeddings request w)) = encode_calls w).
Proof.
  split.
  - intros mdl Hm Hv. rewrite (generate_embeddings_valid w request mdl Hm Hv).
    apply encoded_encode_calls.
  - intros H.
    destruct (generate_embeddings_cases w request)
      as [[_ ->]|(mdl & Hm & [[_ ->]|[[_ ->]|[[L U] _]]])]; try reflexivity.
    destruct H as [N|[E|G]]; [congruence| |lia].
    rewrite E in L. simpl in L. lia.
Qed.

Lemma encoder_called_once_with_the_batch_witness :
  encode_calls (snd (generate_embeddings Sample.hello (Sample.warm ∅)))
  = [["hello world"]] /\
  encode_calls (snd (generate_embeddings Sample.hello (Sample.cold ∅))) = [] /\
  encode_calls (snd (generate_embeddings Sample.oversized (Sample.warm ∅))) = [].
Proof.
  split; [|split].
  - refine (proj1 (encoder_called_once_with_the_batch (Sample.warm ∅) Sample.hello)
              (mkModel "all-MiniLM-L6-v2" Sample.tiny) eq_refl _).
    unfold within_cap. simpl. lia.
  - exact (proj2 (encoder_called_once_with_the_batch (Sample.cold ∅) Sample.hello)
             (or_introl eq_refl)).
  - refine (proj2 (encoder_called_once_with_the_batch (Sample.warm ∅) Sample.oversized)
              (or_intror (or_intror _))).
    simpl. lia.
Defined.



(** ** Invariants of the life cycle *)

Lemma configured_model_name_boot w env :
  environ w = env -> configured_model_name w = boot_model_name env.
Proof. intros <-. reflexivity. Qed.

(** The handle is bound once, to the model of the boot environment, and
    nothing the module runs changes the environment or the hub. *)
Lemma handle_bound_once env h s :
  reachable env h s ->
  environ (world s) = env /\
  hub (world s) = h /\
  match phase s with
  | Starting | Aborted => model (world s) = None
  | Serving | Stopped =>
      exists p, h (boot_model_name env) = inr p /\
                model (world s) = Some (mkModel (boot_model_name env) p)
  end.
Proof.
  unfold reachable. revert s. apply rtc_ind_r; [now repeat split|].
  intros y z _ St (E & H & I).
  destruct (step_keeps_process y z St) as (E' & H' & _).
  split; [congruence|]. split; [congruence|].
  destruct St as [w w' R|w e w' R|w r o w' R|w o w' R]; simpl in *.
  - destruct (hub w (configured_model_name w)) as [e|p] eqn:L.
    { rewrite (lifespan_startup_failed w e L) in R. discriminate. }
    rewrite (lifespan_startup_loaded w p L) in R. injection R as <-.
    rewrite (configured_model_name_boot w env E), H in L.
    exists p. split; [exact L|]. simpl.
    now rewrite (configured_model_name_boot w env E).
  - destruct (hub w (configured_model_name w)) as [x|p] eqn:L.
    + rewrite (lifespan_startup_failed w x L) in R. injection R as _ <-.
      exact I.
    + rewrite (lifespan_startup_loaded w p L) in R. discriminate.
  - pose proof (app_frame r w) as F. rewrite R in F.
    destruct F as (Fm & _). simpl in Fm. now rewrite Fm.
  - unfold lifespan_shutdown in R. run. injection R as _ <-. exact I.
Qed.

Lemma served_reachable : reachable ∅ Sample.catalogue Scenario.served.
Proof.
  unfold reachable.
  eapply rtc_l; [apply (step_startup_complete _ Scenario.started); reflexivity|].
  apply rtc_once.
  eapply (step_request _ (POST_embeddings Sample.hello)). reflexivity.
Defined.

(** X7: the cap on the batch is an invariant of the whole run: in every
    state a booted server can reach, each batch that was handed to
    [model.encode] had between 1 and 100 sentences. *)
Theorem encoder_batches_within_cap
    (env : gmap string string) (h : string -> PyException + Pretrained)
    (s : Server) :
  reachable env h s ->
  Forall within_cap (encode_calls (world s)).
Proof.
  unfold reachable. revert s. apply rtc_ind_r; [constructor|].
  intros y z _ St IH. now apply (step_keeps_process y z St).
Qed.

Lemma encoder_batches_within_cap_witness :
  encode_calls (world Scenario.served) = [["hello world"]] /\
  Forall within_cap (encode_calls (world Scenario.served)).
Proof.
  split; [reflexivity|].
  exact (encoder_batches_within_cap ∅ Sample.catalogue Scenario.served
           served_reachable).
Defined.

(** X8: the model handle is written once.  In every reachable state the
    environment and the hub are those of the boot; before the start-up
    completes and after it failed [model] is [None]; while routes are served
    and after shutdown [model] is the one handle built at start-up, named
    after the [MODEL_NAME] of the boot environment and holding what the hub
    serves under that name. *)
Theorem model_handle_written_once
    (env : gmap string string) (h : string -> PyException + Pretrained)
    (s : Server) :
  reachable env h s ->
  environ (world s) = env /\
  hub (world s) = h /\
  (phase s = Starting \/ phase s = Aborted -> model (world s) = None) /\
  (phase s = Serving \/ phase s = Stopped ->
   exists p, h (boot_model_name env) = inr p /\
             model (world s) = Some (mkModel (boot_model_name env) p)).
Proof.
  intros R. destruct (handle_bound_once env h s R) as (E & H & I).
  split; [exact E|]. split; [exact H|].
  destruct (phase s); split; intros [P|P]; try discriminate; exact I.
Qed.

Lemma model_handle_written_once_witness :
  environ (world Scenario.served) = ∅ /\
  hub (world Scenario.served) = Sample.catalogue /\
  (phase Scenario.served = Starting \/ phase Scenario.served = Aborted ->
   model (world Scenario.served) = None) /\
  (phase Scenario.served = Serving \/ phase Scenario.served = Stopped ->
   exists p, Sample.catalogue (boot_model_name ∅) = inr p /\
             model (world Scenario.served) = Some (mkModel (boot_model_name ∅) p)).
Proof.
  exact (model_handle_written_once ∅ Sample.catalogue Scenario.served
           served_reachable).
Defined.

(** X9: as long as only the module's own code runs, the name the read
    endpoints report is the name of the model in memory: in every reachable
    state that serves routes, [root] and [model_info] return the
    [model_name_or_path] of the loaded handle. *)
Theorem serving_reports_loaded_model_name
    (env : gmap string string) (h : string -> PyException + Pretrained)
    (s : Server) :
  reachable env h s ->
  phase s = Serving ->
  exists mdl d_root d_info,
    model (world s) = Some mdl /\
    root (world s) = (Return d_root, world s) /\
    model_info (world s) = (Return d_info, world s) /\
    dict_get "model" d_root = Some (PyStr (model_name_or_path mdl)) /\
    dict_get "model_name" d_info = Some (PyStr (model_name_or_path mdl)).
Proof.
  intros R P. destruct (handle_bound_once env h s R) as (E & _ & I).
  rewrite P in I. destruct I as (p & _ & Hm).
  destruct (model_info_loaded (world s) _ Hm) as (d & Hi & Hn & _).
  exists (mkModel (boot_model_name env) p). eexists. exists d.
  rewrite root_payload, (configured_model_name_boot (world s) env E) in *.
  repeat split; solve [eassumption | reflexivity].
Qed.

Lemma serving_reports_loaded_model_name_witness :
  exists mdl d_root d_info,
    model (world Scenario.served) = Some mdl /\
    root (world Scenario.served) = (Return d_root, world Scenario.served) /\
    model_info (world Scenario.served) = (Return d_info, world Scenario.served) /\
    dict_get "model" d_root = Some (PyStr (model_name_or_path mdl)) /\
    dict_get "model_name" d_info = Some (PyStr (model_name_or_path mdl)).
Proof.
  exact (serving_reports_loaded_model_name ∅ Sample.catalogue Scenario.served
           served_reachable eq_refl).
Defined.

(** ** Runs of requests *)

Lemma serve_cons r rs w : serve (r :: rs) w = serve rs (snd (app r w)).
Proof. reflexivity. Qed.

(** X10: over any run of requests the encoder is called at most once per
    request to embed and never by a read endpoint: the trace of encode
    calls only grows at its end, by no more batches than the run has
    requests to embed, each within the cap; and a run made of read requests
    alone leaves the process exactly as it found it. *)
Theorem serve_encoder_budget (rs : list Request) (w : World) :
  (exists calls,
     encode_calls (serve rs w) = (encode_calls w ++ calls)%list /\
     length calls <= length (List.filter is_inference rs) /\
     Forall within_cap calls) /\
  (forallb (fun r => negb (is_inference r)) rs = true -> serve rs w = w).
Proof.
  revert w. induction rs as [|r rs IH]; intros w.
  - split; [|reflexivity]. exists []. simpl.
    rewrite app_nil_r. split; [reflexivity|]. split; [lia|constructor].
  - rewrite serve_cons. destruct (IH (snd (app r w))) as ((calls & E & L & B) & Q).
    split.
    + destruct (app_encode_calls r w) as [K|(body & -> & V & K)];
        rewrite K in E.
      * exists calls. split; [exact E|]. split; [|exact B].
        simpl. destruct (is_inference r); simpl; lia.
      * exists (sentences body :: calls).
        rewrite <- app_assoc in E. split; [exact E|].
        split; [simpl; lia|]. now constructor.
    + simpl. intros A. apply andb_prop in A as [A1 A2].
      apply negb_true_iff in A1.
      rewrite (read_route_keeps_world r w A1) in Q |- *. now apply Q.
Qed.

Lemma serve_encoder_budget_witness :
  (exists calls,
     encode_calls (serve Scenario.traffic Scenario.started)
     = (encode_calls Scenario.started ++ calls)%list /\
     length calls <= 3 /\
     Forall within_cap calls) /\
  serve [GET_health; GET_root; GET_model_info] Scenario.started = Scenario.started.
Proof.
  split.
  - exact (proj1 (serve_encoder_budget Scenario.traffic Scenario.started)).
  - exact (proj2 (serve_encoder_budget [GET_health; GET_root; GET_model_info]
                    Scenario.started) eq_refl).
Defined.

(** * The test runners *)

Lemma mcp_run_tests_passed tests passed out :
  fst (Scripts.TestMcp.run_tests tests passed out)
  = passed + Scripts.count_passed tests.
Proof.
  revert passed out. induction tests as [|[name t] rest IH]; intros passed out.
  - simpl. unfold Scripts.count_passed. simpl. lia.
  - simpl. unfold Scripts.count_passed in *. simpl.
    destruct (Scripts.outcome t) as [e|[|]]; rewrite IH; simpl; lia.
Qed.

Lemma phase2_run_tests_passed tests passed out :
  fst (Scripts.TestPhase2.run_tests tests passed out)
  = passed + Scripts.count_passed tests.
Proof.
  revert passed out. induction tests as [|[name t] rest IH]; intros passed out.
  - simpl. unfold Scripts.count_passed. simpl. lia.
  - simpl. unfold Scripts.count_passed in *. simpl.
    destruct (Scripts.outcome t) as [e|[|]]; rewrite IH; simpl; lia.
Qed.

Lemma count_passed_le (tests : list (string * Scripts.TestRun)) :
  Scripts.count_passed tests <= length tests.
Proof. unfold Scripts.count_passed. apply filter_length_le. Qed.

Lemma count_passed_all (tests : list (string * Scripts.TestRun)) :
  Scripts.count_passed tests = length tests
  <-> Forall (fun t => Scripts.outcome (snd t) = inr true) tests.
Proof.
  induction tests as [|[name t] rest IH].
  - split; [constructor|reflexivity].
  - pose proof (count_passed_le rest) as B.
    unfold Scripts.count_passed in *. simpl.
    destruct (Scripts.outcome t) as [e|[|]] eqn:O; simpl; split; intros H.
    + lia.
    + inversion H; subst. simpl in *. congruence.
    + constructor; [exact O|]. apply IH. lia.
    + inversion H; subst. f_equal. now apply IH.
    + lia.
    + inversion H; subst. simpl in *. congruence.
Qed.

Lemma some_test_not_passed (tests : list (string * Scripts.TestRun)) :
  Exists (fun t => Scripts.outcome (snd t) <> inr true) tests
  <-> ~ Forall (fun t => Scripts.outcome (snd t) = inr true) tests.
Proof.
  induction tests as [|[name t] rest IH].
  - split; [intros E; inversion E|intros N; exfalso; apply N; constructor].
  - split.
    + intros E F. inversion F; subst. inversion E; subst; [auto|].
      now apply IH.
    + intros N. destruct (Scripts.outcome t) as [e|[|]] eqn:O.
      * left. simpl. congruence.
      * right. apply IH. intros F. apply N. now constructor.
      * left. simpl. congruence.
Qed.

(** X11: [scripts/test_mcp.py] succeeds only on a clean run.  When the
    probe of the binary returns, [main] ends with [sys.exit(0)] exactly when
    every listed test returned [True], and with [sys.exit(1)] otherwise: a
    test that returns [False] or raises is counted as not passed and never
    stops the run; the summary line prints the number of tests that returned
    [True].  When the probe raises [FileNotFoundError], [main] exits with 1
    before any test runs. *)
Theorem mcp_suite_exit_code (tests : list (string * Scripts.TestRun)) :
  (fst (Scripts.TestMcp.main None tests) = Scripts.Exit 0
   <-> Forall (fun t => Scripts.outcome (snd t) = inr true) tests) /\
  (fst (Scripts.TestMcp.main None tests) = Scripts.Exit 1
   <-> Exists (fun t => Scripts.outcome (snd t) <> inr true) tests) /\
  In ("Test Results: " ++ pretty (Scripts.count_passed tests) ++ "/"
      ++ pretty (length tests) ++ " passed")
     (snd (Scripts.TestMcp.main None tests)) /\
  (forall e, Scripts.is_FileNotFoundError e = true ->
     Scripts.TestMcp.main (Some e) tests
     = (Scripts.Exit 1,
        ["A-MEM MCP Server Test Suite"; Scripts.str_times "=" 40;
         "Error: amem-server binary not found. Please run 'make build' first."])).
Proof.
  pose proof (mcp_run_tests_passed tests 0
                ["A-MEM MCP Server Test Suite"; Scripts.str_times "=" 40]) as P.
  pose proof (count_passed_all tests) as A.
  unfold Scripts.TestMcp.main.
  destruct (Scripts.TestMcp.run_tests tests 0 _) as [passed out].
  simpl in P. subst passed.
  pose proof (some_test_not_passed tests) as X.
  destruct (Nat.eqb_spec (Scripts.count_passed tests) (length tests)) as [E|N];
    simpl.
  - split; [split; [intros _; now apply A|reflexivity]|].
    split; [rewrite X; split; [discriminate|intros C; exfalso; apply C, A, E]|].
    split; [|intros e ->; reflexivity].
    apply in_or_app. left. apply in_or_app. right. right. now left.
  - split; [split; [discriminate|intros F; exfalso; apply N, A, F]|].
    split; [rewrite X; split; [intros _ F; apply N, A, F|reflexivity]|].
    split; [|intros e ->; reflexivity].
    apply in_or_app. left. apply in_or_app. right. right. now left.
Qed.

Lemma mcp_suite_exit_code_witness :
  Scripts.TestMcp.main
    (Some (mkExc "FileNotFoundError" "[Errno 2] No such file or directory: './amem-server'"))
    Scripts.one_failure
  = (Scripts.Exit 1,
     ["A-MEM MCP Server Test Suite"; Scripts.str_times "=" 40;
      "Error: amem-server binary not found. Please run 'make build' first."]).
Proof.
  exact (proj2 (proj2 (proj2 (mcp_suite_exit_code Scripts.one_failure)))
           (mkExc "FileNotFoundError"
                  "[Errno 2] No such file or directory: './amem-server'")
           eq_refl).
Defined.

(** X12: [scripts/test_phase2.py] accepts a pass rate of 80 percent.  With
    the six tests the script lists and a probe that returns, [main] ends
    with [sys.exit(0)] exactly when at least five tests returned [True], so
    one test may fail or raise and the suite still succeeds; with four or
    fewer it ends with [sys.exit(1)]. *)
Theorem phase2_suite_tolerates_one_failure
    (tests : list (string * Scripts.TestRun)) :
  length tests = 6 ->
  (fst (Scripts.TestPhase2.main None tests) = Scripts.Exit 0
   <-> 5 <= Scripts.count_passed tests) /\
  (fst (Scripts.TestPhase2.main None tests) = Scripts.Exit 1
   <-> Scripts.count_passed tests <= 4).
Proof.
  intros L.
  pose proof (phase2_run_tests_passed tests 0
                ["üöÄ A-MEM MCP Server Phase 2 Test Suite";
                 Scripts.str_times "=" 50; ""]) as P.
  pose proof (count_passed_le tests) as B. rewrite L in B.
  unfold Scripts.TestPhase2.main. rewrite L.
  destruct (Scripts.TestPhase2.run_tests tests 0 _) as [passed out].
  simpl in P. subst passed.
  destruct (Scripts.count_passed tests) as [|[|[|[|[|[|[|n]]]]]]];
    try lia; simpl; split; split; intros H;
    solve [lia | reflexivity | discriminate].
Qed.

Lemma phase2_suite_tolerates_one_failure_witness :
  Scripts.count_passed Scripts.one_failure = 5 /\
  fst (Scripts.TestPhase2.main None Scripts.one_failure) = Scripts.Exit 0.
Proof.
  split; [reflexivity|].
  apply (proj1 (phase2_suite_tolerates_one_failure Scripts.one_failure eq_refl)).
  apply le_n.
Defined.
